(** * Weather lookup (02_API.py): a shallow embedding and its properties

    The program is one function, [get_weather], that sends a single HTTP GET
    to the weather provider and maps the outcome to a dictionary, one
    renderer, [print_weather_report], and the block run as a script, [main],
    that reads a city, strips it and calls both.  The embedding follows the
    Python text statement by statement:

    - Python values that can come out of [response.json()] are the inductive
      [pyval]; JSON objects keep their insertion order (it shows when a
      value is interpolated into an f-string);
    - the dictionary returned by [get_weather] is a finite map from key to
      value ([gmap string pyval]);
    - the network, the log of requests sent and the console are an explicit
      [world]; exceptions are results of the monad [M], and [try]/[except]
      is the combinator [try_except]. *)

From Stdlib Require Import ZArith Floats String Ascii List.
From stdpp Require Import gmap strings pretty.

Local Open Scope Z_scope.
Local Open Scope string_scope.

(** ** Python values *)

#[local] Set Warnings "-register-all".

Inductive pyval : Type :=
| PNone
| PBool (b : bool)
| PInt (n : Z)
| PFloat (x : float)
| PStr (s : string)
| PList (l : list pyval)
| PDict (d : list (string * pyval)).

(** The exception classes that occur.  [RequestException] carries [str(e)];
    none of the others is a subclass of another one in this list.
    [RecursionError] is what the JSON decoder raises on a body nested deeper
    than the interpreter's recursion limit, [EOFError] what [input] raises
    at the end of standard input. *)
Inductive exn : Type :=
| RequestException (msg : string)
| ValueError
| AttributeError
| KeyError
| IndexError
| TypeError
| RecursionError
| EOFError.

(** The outcome of a call: a value or an exception. *)
Inductive res (A : Type) : Type :=
| Ret (a : A)
| Raise (e : exn).
Arguments Ret {A} a.
Arguments Raise {A} e.

(** ** The world: network, request log, console *)

Record request : Type := mkRequest {
  url : string;
  params : list (string * pyval);
  timeout : Z
}.

(** A response is seen by the program through [status_code] and [json()]
    only; [json_result] is what [json()] does on its body: it returns the
    decoded value or raises ([ValueError] when the decoder rejects the
    body, another exception when the decoder itself fails). *)
Record Response : Type := mkResponse {
  status_code : Z;
  json_result : res pyval
}.

(** The decoded body, when [json()] returns one. *)
Definition json_body (r : Response) : option pyval :=
  match json_result r with
  | Ret v => Some v
  | Raise _ => None
  end.

Inductive transport : Type :=
| Fails (e : string)
| Responds (r : Response).

Record world : Type := mkWorld {
  network : list request -> request -> transport;
  sent : list request;
  stdout : list string
}.

(** ** The monad of effects *)

Definition M (A : Type) : Type := world -> res A * world.

Definition ret {A} (a : A) : M A := fun w => (Ret a, w).
Definition raise {A} (e : exn) : M A := fun w => (Raise e, w).
Definition bind {A B} (m : M A) (k : A -> M B) : M B :=
  fun w => match m w with
           | (Ret a, w') => k a w'
           | (Raise e, w') => (Raise e, w')
           end.

Notation "x <- m ;; k" := (bind m (fun x => k))
  (at level 100, m at next level, right associativity).
Notation "m ;;; k" := (bind m (fun _ => k))
  (at level 100, right associativity).

(** [try: body / except <classes> as e: handler e / else: orelse].  The
    handler is asked for every exception; [None] means that no [except]
    clause matches and the exception propagates. *)
Definition try_except {A B} (body : M A) (handler : exn -> option (M B))
    (orelse : A -> M B) : M B :=
  fun w => match body w with
           | (Ret a, w') => orelse a w'
           | (Raise e, w') =>
               match handler e with
               | Some h => h w'
               | None => (Raise e, w')
               end
           end.

Definition except_ValueError {B} (h : M B) (e : exn) : option (M B) :=
  match e with ValueError => Some h | _ => None end.

Definition except_RequestException {B} (h : string -> M B) (e : exn)
    : option (M B) :=
  match e with RequestException msg => Some (h msg) | _ => None end.

(** ** Builtins *)

(** The value stored under [key] in the items of a dict, if any. *)
Fixpoint dict_lookup (d : list (string * pyval)) (key : string)
    : option pyval :=
  match d with
  | [] => None
  | (k, v) :: d' => if String.eqb k key then Some v else dict_lookup d' key
  end.

Definition dict_get (d : list (string * pyval)) (key : string)
    (default : pyval) : pyval :=
  match dict_lookup d key with
  | Some v => v
  | None => default
  end.

(** [x.get(key, default)]: only a dict has the method. *)
Definition py_get (x : pyval) (key : string) (default : pyval) : M pyval :=
  match x with
  | PDict d => ret (dict_get d key default)
  | _ => raise AttributeError
  end.

(** Truth value of [x] in [... if x else ...]. *)
Definition truthy (x : pyval) : bool :=
  match x with
  | PNone => false
  | PBool b => b
  | PInt n => negb (Z.eqb n 0)
  | PFloat f => negb (PrimFloat.eqb f 0%float)
  | PStr s => negb (String.eqb s "")
  | PList l => match l with [] => false | _ => true end
  | PDict d => match d with [] => false | _ => true end
  end.

(** [x[0]].  The keys of a decoded JSON object are strings, so the integer
    key 0 is never found in a dict.  Indexing a string gives a string of
    length one (its first byte here; [get_weather] only calls [get] on it,
    which no string has). *)
Definition py_item0 (x : pyval) : M pyval :=
  match x with
  | PList (v :: _) => ret v
  | PList [] => raise IndexError
  | PStr (String c _) => ret (PStr (String c ""))
  | PStr "" => raise IndexError
  | PDict _ => raise KeyError
  | _ => raise TypeError
  end.

(** [response.json()] *)
Definition json (response : Response) : M pyval :=
  fun w => (json_result response, w).

(** [requests.get(url, params=params, timeout=timeout)]: one request goes
    out and is logged; the network either answers or the call raises. *)
Definition reply (w : world) (rq : request) : transport :=
  network w (sent w) rq.

Definition log_request (rq : request) (w : world) : world :=
  mkWorld (network w) (sent w ++ [rq]) (stdout w).

Definition requests_get (u : string) (ps : list (string * pyval)) (t : Z)
    : M Response :=
  fun w =>
    let rq := mkRequest u ps t in
    match reply w rq with
    | Fails e => (Raise (RequestException e), log_request rq w)
    | Responds r => (Ret r, log_request rq w)
    end.

(** [result[key]] on the dictionary built by [get_weather]. *)
Definition dict_item (result : gmap string pyval) (key : string) : M pyval :=
  match result !! key with
  | Some v => ret v
  | None => raise KeyError
  end.

(** [print(a, b, ...)] of arguments already converted with [str]. *)
Definition nl : string := String (ascii_of_nat 10) "".

Definition py_print (args : list string) : M unit :=
  fun w => (Ret tt,
            mkWorld (network w) (sent w)
                    (stdout w ++ [String.concat " " args +:+ nl])).

Definition BASE_URL : string :=
  "http://api.openweathermap.org/data/2.5/weather".

(** [input(prompt)]: as documented for [input], the prompt is written to
    standard output without a newline; then the line that the user enters
    comes back without its end of line, or [EOFError] is raised when
    standard input is at its end ([entered = None]). *)
Definition py_input (prompt : string) (entered : option string) : M string :=
  fun w =>
    (match entered with
     | Some line => Ret line
     | None => Raise EOFError
     end,
     mkWorld (network w) (sent w) (stdout w ++ [prompt])).

(** [s.strip()].  A string is its UTF-8 bytes; [whitespace] lists the
    encodings of the 29 characters for which [str.isspace()] holds:
    U+0009..000D, U+001C..0020, U+0085, U+00A0, U+1680, U+2000..200A,
    U+2028, U+2029, U+202F, U+205F and U+3000. *)
Definition bytes (l : list nat) : string :=
  fold_right (fun n s => String (ascii_of_nat n) s) "" l.

Definition whitespace : list string :=
  map bytes
      [[9]; [10]; [11]; [12]; [13]; [28]; [29]; [30]; [31]; [32];
       [194; 133]; [194; 160]; [225; 154; 128];
       [226; 128; 128]; [226; 128; 129]; [226; 128; 130]; [226; 128; 131];
       [226; 128; 132]; [226; 128; 133]; [226; 128; 134]; [226; 128; 135];
       [226; 128; 136]; [226; 128; 137]; [226; 128; 138];
       [226; 128; 168]; [226; 128; 169]; [226; 128; 175];
       [226; 129; 159]; [227; 128; 128]]%nat.

(** The rest of [s] after its prefix [code], if [s] starts with it. *)
Fixpoint drop_prefix (code s : string) : option string :=
  match code, s with
  | "", _ => Some s
  | String a code', String b s' =>
      if Ascii.eqb a b then drop_prefix code' s' else None
  | String _ _, "" => None
  end.

(** The rest of [s] after one leading character among [codes]. *)
Fixpoint skip_one (codes : list string) (s : string) : option string :=
  match codes with
  | [] => None
  | c :: cs =>
      match drop_prefix c s with
      | Some rest => Some rest
      | None => skip_one cs s
      end
  end.

(** Skip leading characters among [codes]; [fuel] bounds their number. *)
Fixpoint skip_all (codes : list string) (fuel : nat) (s : string) : string :=
  match fuel with
  | O => s
  | S n =>
      match skip_one codes s with
      | Some rest => skip_all codes n rest
      | None => s
      end
  end.

Definition lstrip (s : string) : string :=
  skip_all whitespace (String.length s) s.

Definition rstrip (s : string) : string :=
  String.rev (skip_all (map String.rev whitespace) (String.length s)
                       (String.rev s)).

Definition strip (s : string) : string := rstrip (lstrip s).

(** A string made of whitespace characters only. *)
Definition blank (s : string) : Prop :=
  exists codes,
    Forall (fun c => In c whitespace) codes
    /\ s = fold_right String.append "" codes.

Section Program.

(** What the interpreter and the process environment supply: [repr] of a
    float and of a string, and [os.getenv("API_KEY")], read once when the
    module is loaded ([PNone] when the variable is not set). *)
Variable repr_float : float -> string.
Variable repr_str : string -> string.
Variable API_KEY : pyval.

Fixpoint py_repr (x : pyval) : string :=
  match x with
  | PNone => "None"
  | PBool true => "True"
  | PBool false => "False"
  | PInt n => pretty n
  | PFloat f => repr_float f
  | PStr s => repr_str s
  | PList l => "[" +:+ String.concat ", " (map py_repr l) +:+ "]"
  | PDict d =>
      "{" +:+ String.concat ", "
                (map (fun kv => repr_str (fst kv) +:+ ": " +:+ py_repr (snd kv)) d)
          +:+ "}"
  end.

(** [str(x)], which is what [{x}] in an f-string inserts. *)
Definition py_str (x : pyval) : string :=
  match x with
  | PStr s => s
  | _ => py_repr x
  end.

Definition get_weather (city_name : string) : M (gmap string pyval) :=
  let params := [("q", PStr city_name); ("appid", API_KEY);
                 ("units", PStr "metric")] in
  try_except (requests_get BASE_URL params 10)
    (except_RequestException (fun e =>
       ret {[ "error" := PStr ("Network error: " +:+ e) ]}))
    (fun response =>
       if negb (Z.eqb (status_code response) 200) then
         message <- try_except
                      (error_data <- json response ;;
                       py_get error_data "message" (PStr "Unknown error"))
                      (except_ValueError
                         (ret (PStr "Invalid response from server")))
                      ret ;;
         if Z.eqb (status_code response) 401 then
           ret {[ "error" := PStr ("Invalid API key: " +:+ py_str message) ]}
         else if Z.eqb (status_code response) 404 then
           ret {[ "error" := PStr ("City not found: " +:+ city_name) ]}
         else
           ret {[ "error" :=
                    PStr ("API request failed with status "
                          +:+ pretty (status_code response) +:+ ": "
                          +:+ py_str message) ]}
       else
         try_except (json response)
           (except_ValueError
              (ret {[ "error" := PStr "Failed to decode JSON response" ]}))
           (fun data =>
              main <- py_get data "main" (PDict []) ;;
              weather_list <- py_get data "weather" (PList []) ;;
              wind <- py_get data "wind" (PDict []) ;;
              temperature <- py_get main "temp" PNone ;;
              pressure <- py_get main "pressure" PNone ;;
              humidity <- py_get main "humidity" PNone ;;
              description <- (if truthy weather_list then
                                first <- py_item0 weather_list ;;
                                py_get first "description" PNone
                              else ret PNone) ;;
              wind_speed <- py_get wind "speed" PNone ;;
              city <- py_get data "name" (PStr city_name) ;;
              ret {[ "city" := city;
                     "temperature" := temperature;
                     "pressure" := pressure;
                     "humidity" := humidity;
                     "description" := description;
                     "wind_speed" := wind_speed ]})).

Definition print_weather_report (result : gmap string pyval) : M unit :=
  if bool_decide (is_Some (result !! "error")) then
    e <- dict_item result "error" ;;
    py_print [nl +:+ "❌ Error:"; py_str e]
  else
    city <- dict_item result "city" ;;
    py_print [nl +:+ "📍 Weather Report for:"; py_str city] ;;;
    py_print ["--------------------------------------"] ;;;
    temperature <- dict_item result "temperature" ;;
    py_print ["🌡 Temperature : " +:+ py_str temperature +:+ " °C"] ;;;
    humidity <- dict_item result "humidity" ;;
    py_print ["💧 Humidity    : " +:+ py_str humidity +:+ " %"] ;;;
    pressure <- dict_item result "pressure" ;;
    py_print ["🔽 Pressure    : " +:+ py_str pressure +:+ " hPa"] ;;;
    wind_speed <- dict_item result "wind_speed" ;;
    py_print ["🌬 Wind Speed  : " +:+ py_str wind_speed +:+ " m/s"] ;;;
    description <- dict_item result "description" ;;
    py_print ["🌦 Condition   : " +:+ py_str description].

(** The block under [if __name__ == "__main__"]; [entered] is the line
    that the user enters at the prompt, if any. *)
Definition main (entered : option string) : M unit :=
  city <- (line <- py_input "Enter city name: " entered ;;
           ret (strip line)) ;;
  if String.eqb city "" then
    py_print ["Please enter a valid city name."]
  else
    weather_data <- get_weather city ;;
    print_weather_report weather_data.

End Program.

(** ** Vocabulary of the properties *)

(** The request that [get_weather] builds for a city. *)
Definition weather_request (API_KEY : pyval) (city_name : string) : request :=
  mkRequest BASE_URL
            [("q", PStr city_name); ("appid", API_KEY); ("units", PStr "metric")]
            10.

(** The two shapes of dictionary that the docstring of [get_weather] names:
    "dict with error" and "dict with weather info". *)
Definition Failure (message : string) : gmap string pyval :=
  {[ "error" := PStr message ]}.

Definition Success (city temperature pressure humidity description wind_speed
                    : pyval) : gmap string pyval :=
  {[ "city" := city;
     "temperature" := temperature;
     "pressure" := pressure;
     "humidity" := humidity;
     "description" := description;
     "wind_speed" := wind_speed ]}.

Definition is_Failure (result : gmap string pyval) : Prop :=
  dom result = {[ "error" ]}.

Definition is_Success (result : gmap string pyval) : Prop :=
  dom result = {[ "city"; "temperature"; "pressure"; "humidity";
                  "description"; "wind_speed" ]}.

Definition is_dict (x : pyval) : bool :=
  match x with PDict _ => true | _ => false end.

(** The shapes of the "weather" entry for which line 79 yields a value: a
    false value (no description), or a list that starts with an object. *)
Definition describable (weather_list : pyval) : bool :=
  negb (truthy weather_list)
  || match weather_list with PList (PDict _ :: _) => true | _ => false end.

(** A decoded object from which every field can be extracted. *)
Definition extractable (d : list (string * pyval)) : bool :=
  is_dict (dict_get d "main" (PDict []))
  && describable (dict_get d "weather" (PList []))
  && is_dict (dict_get d "wind" (PDict [])).

(** The responses on which [get_weather] returns a dictionary: [json()]
    raises [ValueError], or it returns an object which, on status 200, is
    extractable. *)
Definition answerable (r : Response) : bool :=
  match json_result r with
  | Raise ValueError => true
  | Raise _ => false
  | Ret (PDict d) => if Z.eqb (status_code r) 200 then extractable d else true
  | Ret _ => false
  end.

(** What lines 51-55 leave in [message]: the fallback literal when [json()]
    raises [ValueError], the "message" entry (or its default) of a decoded
    object, and nothing when [json()] raises another exception or the
    decoded value has no [get]. *)
Definition server_message (r : Response) : option pyval :=
  match json_result r with
  | Raise ValueError => Some (PStr "Invalid response from server")
  | Raise _ => None
  | Ret (PDict d) => Some (dict_get d "message" (PStr "Unknown error"))
  | Ret _ => None
  end.

(** [sub] occurs in [s]. *)
Definition contains (s sub : string) : Prop :=
  exists pre post, s = pre +:+ sub +:+ post.

(** A network that gives the same outcome to every request, with nothing
    sent and nothing printed yet. *)
Definition serve (o : transport) : world :=
  mkWorld (fun _ _ => o) [] [].

(** The decoded body
    {"name":"London","main":{"temp":15.2,"pressure":1012,"humidity":70},
     "weather":[{"description":"clear sky"}],"wind":{"speed":3.1}}.
    A decimal literal denotes the nearest binary64 number, which is the float
    that the JSON decoder produces for it. *)
#[local] Set Warnings "-inexact-float".

Definition london_body : pyval :=
  PDict [("name", PStr "London");
         ("main", PDict [("temp", PFloat 15.2%float);
                         ("pressure", PInt 1012);
                         ("humidity", PInt 70)]);
         ("weather", PList [PDict [("description", PStr "clear sky")]]);
         ("wind", PDict [("speed", PFloat 3.1%float)])].

(** Responses that a server or an intermediary can send and whose body
    decodes to a value of another type than the provider's schema has. *)
Definition ok_array : Response := mkResponse 200 (Ret (PList [])).
Definition ok_null_main : Response :=
  mkResponse 200 (Ret (PDict [("main", PNone)])).
Definition unauthorized_string : Response :=
  mkResponse 401 (Ret (PStr "Unauthorized")).
Definition not_found_array : Response := mkResponse 404 (Ret (PList [])).
Definition server_error_null : Response := mkResponse 500 (Ret PNone).
Definition unavailable_string : Response :=
  mkResponse 503 (Ret (PStr "Service Unavailable")).

(** The provider's answer to a request with a bad key. *)
Definition unauthorized_object : Response :=
  mkResponse 401 (Ret (PDict [("cod", PInt 401);
                               ("message", PStr "Invalid API key.")])).

(** The provider's answer for an unknown city, a server error with a body
    that is not JSON, and an object without any field. *)
Definition not_found_object : Response :=
  mkResponse 404 (Ret (PDict [("cod", PStr "404");
                               ("message", PStr "city not found")])).
Definition server_error_page : Response := mkResponse 500 (Raise ValueError).
Definition ok_empty_object : Response := mkResponse 200 (Ret (PDict [])).

(** A 200 response whose body is 2000 opening brackets: the decoder gives
    up with [RecursionError] before it can reject the text. *)
Definition ok_too_deep : Response := mkResponse 200 (Raise RecursionError).

(** Responses used to run the documented behaviours. *)
Definition ok_london : Response := mkResponse 200 (Ret london_body).
Definition ok_undecodable : Response := mkResponse 200 (Raise ValueError).
Definition ok_null_name : Response :=
  mkResponse 200 (Ret (PDict [("name", PNone)])).

(** Stand-ins for the interpreter's [repr], to run the model on inputs whose
    messages interpolate strings only. *)
Definition opaque_float (_ : float) : string := "<float>".
Definition quoted (s : string) : string := "'" +:+ s +:+ "'".

(** ** Properties *)

(** Run [get_weather] up to the answer [H] of the network. *)
Ltac answer H :=
  unfold get_weather, try_except, requests_get;
  match type of H with
  | reply _ (weather_request ?k ?c) = _ =>
      change (mkRequest BASE_URL _ 10) with (weather_request k c)
  end;
  rewrite H; cbn beta iota.

Section Properties.

Variable repr_float : float -> string.
Variable repr_str : string -> string.
Variable API_KEY : pyval.

Local Abbreviation get_weather := (get_weather repr_float repr_str API_KEY).
Local Abbreviation py_str := (py_str repr_float repr_str).
Local Abbreviation the_request := (weather_request API_KEY).

(** *** The single outbound request *)

Lemma get_weather_transport_failure (w : world) (city : string) (e : string) :
  reply w (the_request city) = Fails e ->
  get_weather city w
  = (Ret (Failure ("Network error: " +:+ e)), log_request (the_request city) w).
Proof. intros H. answer H. reflexivity. Qed.

(** *** What [json()] does *)

Lemma json_body_Some (r : Response) (v : pyval) :
  json_body r = Some v -> json_result r = Ret v.
Proof.
  unfold json_body. destruct (json_result r); [|discriminate].
  by intros [= ->].
Qed.

(** An exception of [json()] other than [ValueError] passes both handlers
    and leaves [get_weather], whatever the status code. *)
Lemma get_weather_json_raises (w : world) (city : string) (r : Response)
    (e : exn) :
  reply w (the_request city) = Responds r ->
  json_result r = Raise e ->
  e <> ValueError ->
  get_weather city w = (Raise e, log_request (the_request city) w).
Proof.
  intros H J N. answer H. unfold bind, try_except, json. rewrite J.
  destruct (negb (Z.eqb (status_code r) 200)); cbn;
    destruct e; try reflexivity; contradiction.
Qed.

(** *** Responses with a status other than 200 *)

(** The dictionary chosen by the [if]/[elif]/[else] on the status code once
    [message] is known. *)
Lemma get_weather_error_status (w : world) (city : string) (r : Response)
    (message : pyval) :
  reply w (the_request city) = Responds r ->
  status_code r <> 200 ->
  server_message r = Some message ->
  get_weather city w
  = (Ret (if Z.eqb (status_code r) 401 then
            Failure ("Invalid API key: " +:+ py_str message)
          else if Z.eqb (status_code r) 404 then
            Failure ("City not found: " +:+ city)
          else
            Failure ("API request failed with status "
                     +:+ pretty (status_code r) +:+ ": " +:+ py_str message)),
     log_request (the_request city) w).
Proof.
  intros H N Hm. answer H.
  rewrite (proj2 (Z.eqb_neq _ _) N); cbn [negb].
  unfold server_message in Hm. unfold bind, try_except, json.
  destruct (json_result r) as [[| | | | | |d]|[]]; try discriminate Hm;
    injection Hm as <-; cbn; repeat case_match; reflexivity.
Qed.

(** A body that decodes to something other than an object has no [get]:
    the [AttributeError] is not a [ValueError] and leaves [get_weather],
    whatever the status code. *)
Lemma get_weather_error_status_not_object (w : world) (city : string)
    (r : Response) (v : pyval) :
  reply w (the_request city) = Responds r ->
  status_code r <> 200 ->
  json_body r = Some v ->
  is_dict v = false ->
  get_weather city w = (Raise AttributeError, log_request (the_request city) w).
Proof.
  intros H N J D. apply json_body_Some in J. answer H.
  rewrite (proj2 (Z.eqb_neq _ _) N); cbn [negb].
  unfold bind, try_except, json. rewrite J.
  destruct v; try discriminate D; reflexivity.
Qed.

Lemma append_empty_r (a : string) : a +:+ "" = a.
Proof.
  induction a as [|x a IH]; [reflexivity|].
  change (String x (a +:+ "") = String x a). by rewrite IH.
Qed.

Lemma contains_prefix (pre sub : string) : contains (pre +:+ sub) sub.
Proof. exists pre, "". by rewrite append_empty_r. Qed.

Lemma contains_start (sub post : string) : contains (sub +:+ post) sub.
Proof. exists "", post. reflexivity. Qed.

(** 401, 404 and the other statuses, when [json()] raises [ValueError] or
    returns an object. *)
Lemma get_weather_401 (w : world) (city : string) (r : Response)
    (message : pyval) :
  reply w (the_request city) = Responds r ->
  status_code r = 401 ->
  server_message r = Some message ->
  get_weather city w
  = (Ret (Failure ("Invalid API key: " +:+ py_str message)),
     log_request (the_request city) w)
  /\ contains ("Invalid API key: " +:+ py_str message) "Invalid API key".
Proof.
  intros H S Hm. split.
  - rewrite (get_weather_error_status w city r message H); trivial.
    + by rewrite S.
    + rewrite S. discriminate.
  - apply (contains_start "Invalid API key" (": " +:+ py_str message)).
Qed.

Lemma get_weather_404 (w : world) (city : string) (r : Response)
    (message : pyval) :
  reply w (the_request city) = Responds r ->
  status_code r = 404 ->
  server_message r = Some message ->
  get_weather city w
  = (Ret (Failure ("City not found: " +:+ city)),
     log_request (the_request city) w)
  /\ contains ("City not found: " +:+ city) "City not found"
  /\ contains ("City not found: " +:+ city) city.
Proof.
  intros H S Hm. split; [|split].
  - rewrite (get_weather_error_status w city r message H); trivial.
    + by rewrite S.
    + rewrite S. discriminate.
  - apply (contains_start "City not found" (": " +:+ city)).
  - apply contains_prefix.
Qed.

Lemma get_weather_other_status (w : world) (city : string) (r : Response)
    (message : pyval) :
  reply w (the_request city) = Responds r ->
  status_code r <> 200 ->
  status_code r <> 401 ->
  status_code r <> 404 ->
  server_message r = Some message ->
  get_weather city w
  = (Ret (Failure ("API request failed with status "
                   +:+ pretty (status_code r) +:+ ": " +:+ py_str message)),
     log_request (the_request city) w).
Proof.
  intros H N2 N401 N404 Hm.
  rewrite (get_weather_error_status w city r message H); trivial.
  by rewrite (proj2 (Z.eqb_neq _ _) N401), (proj2 (Z.eqb_neq _ _) N404).
Qed.

(** *** Responses with status 200 *)

Lemma get_weather_undecodable (w : world) (city : string) (r : Response) :
  reply w (the_request city) = Responds r ->
  status_code r = 200 ->
  json_result r = Raise ValueError ->
  get_weather city w
  = (Ret (Failure "Failed to decode JSON response"),
     log_request (the_request city) w).
Proof.
  intros H S J. answer H. rewrite S; cbn [negb Z.eqb Pos.eqb].
  unfold json; rewrite J. reflexivity.
Qed.

Lemma get_weather_not_object (w : world) (city : string) (r : Response)
    (v : pyval) :
  reply w (the_request city) = Responds r ->
  status_code r = 200 ->
  json_body r = Some v ->
  is_dict v = false ->
  get_weather city w = (Raise AttributeError, log_request (the_request city) w).
Proof.
  intros H S J D. apply json_body_Some in J.
  answer H. rewrite S; cbn [negb Z.eqb Pos.eqb].
  unfold json; rewrite J; cbn.
  destruct v; try discriminate D; reflexivity.
Qed.

(** Every field is read with a default: the result is a [Success] whenever
    the entries that are present have the shape of the provider's schema. *)
Lemma get_weather_extracts (w : world) (city : string) (r : Response)
    (d main wind : list (string * pyval)) (description : pyval) :
  reply w (the_request city) = Responds r ->
  status_code r = 200 ->
  json_body r = Some (PDict d) ->
  dict_get d "main" (PDict []) = PDict main ->
  dict_get d "wind" (PDict []) = PDict wind ->
  (truthy (dict_get d "weather" (PList [])) = false /\ description = PNone)
  \/ (exists first rest,
        dict_get d "weather" (PList []) = PList (PDict first :: rest)
        /\ description = dict_get first "description" PNone) ->
  get_weather city w
  = (Ret (Success (dict_get d "name" (PStr city))
                  (dict_get main "temp" PNone)
                  (dict_get main "pressure" PNone)
                  (dict_get main "humidity" PNone)
                  description
                  (dict_get wind "speed" PNone)),
     log_request (the_request city) w).
Proof.
  intros H S J Hm Hw Hd. apply json_body_Some in J.
  answer H. rewrite S; cbn [negb Z.eqb Pos.eqb].
  unfold json; rewrite J; cbn.
  unfold bind, py_get, ret. rewrite Hm, Hw.
  destruct Hd as [[F ->] | (first & rest & E & ->)].
  - rewrite F. reflexivity.
  - rewrite E. reflexivity.
Qed.

(** *** When does [get_weather] return? *)

Lemma is_Failure_Failure (message : string) : is_Failure (Failure message).
Proof. unfold is_Failure, Failure. apply dom_singleton_L. Qed.

Lemma is_Success_Success (c t p h d s : pyval) : is_Success (Success c t p h d s).
Proof.
  unfold is_Success, Success.
  rewrite !dom_insert_L, dom_singleton_L. set_solver.
Qed.

Lemma variants_disjoint (result : gmap string pyval) :
  is_Failure result -> is_Success result -> False.
Proof.
  unfold is_Failure, is_Success. intros F S. rewrite F in S.
  assert (E : "error" ∈ ({[ "error" ]} : gset string)) by set_solver.
  rewrite S in E. set_solver.
Qed.

Lemma get_weather_extractable (w : world) (city : string) (r : Response)
    (d : list (string * pyval)) :
  reply w (the_request city) = Responds r ->
  status_code r = 200 ->
  json_body r = Some (PDict d) ->
  extractable d = true ->
  exists t p h description s,
    get_weather city w
    = (Ret (Success (dict_get d "name" (PStr city)) t p h description s),
       log_request (the_request city) w).
Proof.
  intros H S J A. unfold extractable, describable in A.
  apply andb_prop in A as [A Hwind]. apply andb_prop in A as [Hmain Hdesc].
  destruct (dict_get d "main" (PDict [])) as [| | | | | |main] eqn:Em;
    try discriminate Hmain.
  destruct (dict_get d "wind" (PDict [])) as [| | | | | |wind] eqn:Ew;
    try discriminate Hwind.
  destruct (truthy (dict_get d "weather" (PList []))) eqn:T.
  - cbn in Hdesc.
    destruct (dict_get d "weather" (PList [])) as [| | | | |l|] eqn:El;
      try discriminate Hdesc.
    destruct l as [|[| | | | | |first] rest]; try discriminate Hdesc.
    do 5 eexists.
    eapply (get_weather_extracts w city r d main wind); eauto.
  - do 5 eexists.
    eapply (get_weather_extracts w city r d main wind); eauto.
Qed.

Lemma get_weather_answerable (w : world) (city : string) (r : Response) :
  reply w (the_request city) = Responds r ->
  answerable r = true ->
  exists result,
    get_weather city w = (Ret result, log_request (the_request city) w)
    /\ (is_Failure result \/ is_Success result).
Proof.
  intros H A. unfold answerable in A.
  destruct (json_result r) as [v|e] eqn:J.
  - destruct v as [| | | | | |d]; try discriminate A.
    assert (Jb : json_body r = Some (PDict d))
      by (unfold json_body; by rewrite J).
    destruct (Z.eqb_spec (status_code r) 200) as [S|N].
    + destruct (get_weather_extractable w city r d H S Jb A)
        as (t & p & h & ds & s & E).
      eexists; split; [exact E|]. right. apply is_Success_Success.
    + eexists; split.
      { eapply (get_weather_error_status w city r); eauto.
        unfold server_message. rewrite J. reflexivity. }
      left. repeat case_match; apply is_Failure_Failure.
  - destruct e; try discriminate A.
    destruct (Z.eqb_spec (status_code r) 200) as [S|N].
    + eexists; split.
      { eapply get_weather_undecodable; eauto. }
      left. apply is_Failure_Failure.
    + eexists; split.
      { eapply (get_weather_error_status w city r); eauto.
        unfold server_message. rewrite J. reflexivity. }
      left. repeat case_match; apply is_Failure_Failure.
Qed.

(** On the other responses an exception leaves [get_weather]: the one that
    [json()] raised, or one raised on the decoded value. *)
Lemma get_weather_unanswerable (w : world) (city : string) (r : Response) :
  reply w (the_request city) = Responds r ->
  answerable r = false ->
  exists e,
    get_weather city w = (Raise e, log_request (the_request city) w)
    /\ ((json_result r = Raise e /\ e <> ValueError)
        \/ ((exists v, json_result r = Ret v)
            /\ (e = AttributeError \/ e = KeyError \/ e = TypeError))).
Proof.
  intros H A. unfold answerable in A.
  destruct (json_result r) as [v|e] eqn:J.
  - assert (Jb : json_body r = Some v) by (unfold json_body; by rewrite J).
    cut (exists e,
            get_weather city w = (Raise e, log_request (the_request city) w)
            /\ (e = AttributeError \/ e = KeyError \/ e = TypeError)).
    { intros (e & E & C). exists e. split; [exact E|]. right. eauto. }
    destruct (is_dict v) eqn:D.
    + destruct v as [| | | | | |d]; try discriminate D.
      destruct (Z.eqb_spec (status_code r) 200) as [S|N]; [|discriminate A].
      answer H. rewrite S; cbn [negb Z.eqb Pos.eqb].
      unfold json; rewrite J; cbn.
      unfold extractable, describable in A.
      unfold bind, py_get, py_item0, ret, raise.
      destruct (dict_get d "main" (PDict [])) as [| | | | | |main];
        try (eexists; split; [reflexivity | tauto]).
      destruct (dict_get d "wind" (PDict [])) as [| | | | | |wind];
        destruct (dict_get d "weather" (PList [])) as [|[]|[]|?|[]|[|[] ?]|[]];
        cbn in A |- *; try discriminate A;
        try (eexists; split; [reflexivity | tauto]);
        match goal with
        | |- context [PrimFloat.eqb ?x 0] => destruct (PrimFloat.eqb x 0)
        end;
        cbn in A |- *; try discriminate A;
        eexists; split; try reflexivity; tauto.
    + exists AttributeError. split; [|tauto].
      destruct (Z.eqb_spec (status_code r) 200) as [S|N].
      * eapply get_weather_not_object; eauto.
      * eapply get_weather_error_status_not_object; eauto.
  - assert (N : e <> ValueError) by (destruct e; discriminate).
    exists e. split; [|left; split; [reflexivity | exact N]].
    by apply (get_weather_json_raises w city r e H).
Qed.

(** A dictionary that [get_weather] returns has exactly one of the two
    shapes. *)
Lemma get_weather_returns_variant (w w' : world) (city : string)
    (result : gmap string pyval) :
  get_weather city w = (Ret result, w') ->
  (is_Failure result /\ ~ is_Success result)
  \/ (is_Success result /\ ~ is_Failure result).
Proof.
  intros G.
  assert (V : is_Failure result \/ is_Success result).
  { destruct (reply w (the_request city)) as [e|r] eqn:H.
    - rewrite (get_weather_transport_failure w city e H) in G.
      injection G as <- _. left. apply is_Failure_Failure.
    - destruct (answerable r) eqn:A.
      + destruct (get_weather_answerable w city r H A) as (res & E & V).
        rewrite E in G. injection G as <- _. exact V.
      + destruct (get_weather_unanswerable w city r H A) as (e & E & _).
        rewrite E in G. discriminate G. }
  destruct V as [F|S]; [left|right]; split; trivial;
    intros X; eapply variants_disjoint; eauto.
Qed.

(** [get_weather] returns exactly on the answerable responses. *)
Lemma get_weather_returns_iff (w : world) (city : string) (r : Response) :
  reply w (the_request city) = Responds r ->
  (exists result w', get_weather city w = (Ret result, w'))
  <-> answerable r = true.
Proof.
  intros H. split.
  - intros (result & w' & G). destruct (answerable r) eqn:A; trivial.
    destruct (get_weather_unanswerable w city r H A) as (e & E & _).
    rewrite E in G. discriminate G.
  - intros A. destruct (get_weather_answerable w city r H A) as (res & E & _).
    eauto.
Qed.

(** *** The renderer *)

Lemma append_assoc (a b c : string) : (a +:+ b) +:+ c = a +:+ b +:+ c.
Proof.
  induction a as [|x a IH]; [reflexivity|].
  change (String x ((a +:+ b) +:+ c) = String x (a +:+ b +:+ c)).
  by rewrite IH.
Qed.

Lemma Success_lookup (c t p h d s : pyval) :
  let result := Success c t p h d s in
  result !! "error" = None
  /\ result !! "city" = Some c
  /\ result !! "temperature" = Some t
  /\ result !! "pressure" = Some p
  /\ result !! "humidity" = Some h
  /\ result !! "description" = Some d
  /\ result !! "wind_speed" = Some s.
Proof. cbv zeta. unfold Success. repeat split; by simplify_map_eq. Qed.

Lemma print_weather_report_Failure (w : world) (message : string) :
  print_weather_report repr_float repr_str (Failure message) w
  = (Ret tt,
     mkWorld (network w) (sent w)
             (stdout w ++ [nl +:+ "❌ Error: " +:+ message +:+ nl])).
Proof. reflexivity. Qed.

Lemma print_weather_report_Success (w : world) (c t p h d s : pyval) :
  print_weather_report repr_float repr_str (Success c t p h d s) w
  = (Ret tt,
     mkWorld (network w) (sent w)
       (stdout w
        ++ [nl +:+ "📍 Weather Report for: " +:+ py_str c +:+ nl;
            "--------------------------------------" +:+ nl;
            "🌡 Temperature : " +:+ py_str t +:+ " °C" +:+ nl;
            "💧 Humidity    : " +:+ py_str h +:+ " %" +:+ nl;
            "🔽 Pressure    : " +:+ py_str p +:+ " hPa" +:+ nl;
            "🌬 Wind Speed  : " +:+ py_str s +:+ " m/s" +:+ nl;
            "🌦 Condition   : " +:+ py_str d +:+ nl])).
Proof.
  destruct (Success_lookup c t p h d s) as (Le & Lc & Lt & Lp & Lh & Ld & Ls).
  unfold print_weather_report, bind, py_print, dict_item, ret.
  rewrite Le, Lc, Lt, Lp, Lh, Ld, Ls. cbn.
  rewrite <- !app_assoc, !append_assoc. reflexivity.
Qed.

(** *** The documented behaviours *)

(** C3: on a 200 response whose body decodes to the London object, the
    result is the Success with city "London", temperature 15.2, pressure
    1012, humidity 70, description "clear sky" and wind_speed 3.1. *)
Theorem london_report (w : world) (city : string) (r : Response) :
  reply w (the_request city) = Responds r ->
  status_code r = 200 ->
  json_body r = Some london_body ->
  get_weather city w
  = (Ret (Success (PStr "London") (PFloat 15.2%float) (PInt 1012) (PInt 70)
                  (PStr "clear sky") (PFloat 3.1%float)),
     log_request (the_request city) w).
Proof.
  intros H S J.
  apply (get_weather_extracts w city r _
           [("temp", PFloat 15.2%float); ("pressure", PInt 1012);
            ("humidity", PInt 70)]
           [("speed", PFloat 3.1%float)] (PStr "clear sky") H S J);
    try reflexivity.
  right. exists [("description", PStr "clear sky")], []. split; reflexivity.
Qed.

(** X19: on a 200 response on which [json()] raises [ValueError], the
    result is the Failure with the exact message
    "Failed to decode JSON response". *)
Theorem undecodable_body_failure (w : world) (city : string) (r : Response) :
  reply w (the_request city) = Responds r ->
  status_code r = 200 ->
  json_result r = Raise ValueError ->
  exists result,
    get_weather city w = (Ret result, log_request (the_request city) w)
    /\ is_Failure result
    /\ result !! "error" = Some (PStr "Failed to decode JSON response").
Proof.
  intros H S J. exists (Failure "Failed to decode JSON response").
  split; [exact (get_weather_undecodable w city r H S J)|].
  split; [apply is_Failure_Failure|]. apply lookup_singleton_eq.
Qed.

(** C9: when the single outbound request fails in transport, the result is
    the Failure "Network error: " followed by the text of the transport
    error, which it therefore contains, and exactly one request has been
    sent: there is no second attempt. *)
Theorem transport_failure_is_terminal (w : world) (city e : string) :
  reply w (the_request city) = Fails e ->
  exists message w',
    get_weather city w = (Ret (Failure message), w')
    /\ message = "Network error: " +:+ e
    /\ contains message "Network error"
    /\ contains message e
    /\ sent w' = (sent w ++ [the_request city])%list.
Proof.
  intros H. exists ("Network error: " +:+ e), (log_request (the_request city) w).
  split; [exact (get_weather_transport_failure w city e H)|].
  split; [reflexivity|].
  split; [apply (contains_start "Network error" (": " +:+ e))|].
  split; [apply contains_prefix | reflexivity].
Qed.

(** C10: on a 200 response whose object maps "name" to null, every result
    that [get_weather] returns is a Success whose city is null, not the
    input city name; and it does return one whenever the other entries can
    be extracted.  The fallback to the input city applies to an absent key
    only. *)
Theorem null_name_is_kept (w : world) (city : string) (r : Response)
    (d : list (string * pyval)) :
  reply w (the_request city) = Responds r ->
  status_code r = 200 ->
  json_body r = Some (PDict d) ->
  dict_lookup d "name" = Some PNone ->
  (forall result w',
     get_weather city w = (Ret result, w') ->
     is_Success result
     /\ result !! "city" = Some PNone
     /\ result !! "city" <> Some (PStr city))
  /\ (extractable d = true ->
      exists result,
        get_weather city w = (Ret result, log_request (the_request city) w)).
Proof.
  intros H S J Hn. split.
  - intros result w' G.
    assert (A : answerable r = true).
    { apply (get_weather_returns_iff w city r H). eauto. }
    unfold answerable in A. rewrite (json_body_Some r _ J), S in A. cbn in A.
    destruct (get_weather_extractable w city r d H S J A)
      as (t & p & h & ds & s & E).
    rewrite E in G. injection G as <- _.
    unfold dict_get. rewrite Hn.
    destruct (Success_lookup PNone t p h ds s) as (_ & Lc & _).
    split; [apply is_Success_Success|].
    split; [exact Lc|]. rewrite Lc. discriminate.
  - intros A.
    destruct (get_weather_extractable w city r d H S J A)
      as (t & p & h & ds & s & E).
    eauto.
Qed.

(** *** Where the code leaves its documented contract

    The docstring promises a "dict with weather info OR dict with error",
    and the handlers catch [ValueError] around [response.json()].  A body
    that decodes to a value of an unexpected type is not caught: calling
    [get] on it (or indexing it) raises past every handler.  Neither is an
    exception of [json()] that is not a [ValueError]. *)

(** C1: [get_weather] does not turn every response into a result: on a 200
    response whose body is the JSON array [[]] it raises [AttributeError],
    so no dictionary is returned. *)
Theorem array_body_raises :
  get_weather "London" (serve (Responds ok_array))
  = (Raise AttributeError,
     log_request (the_request "London") (serve (Responds ok_array)))
  /\ ~ (exists result w',
          get_weather "London" (serve (Responds ok_array)) = (Ret result, w')).
Proof.
  split; [reflexivity|].
  intros (result & w' & G). discriminate G.
Qed.

(** C2: on a 503 response whose body is the JSON string
    "Service Unavailable", [get_weather] raises [AttributeError]: it returns
    neither a Failure nor a Success. *)
Theorem string_body_gives_no_variant :
  get_weather "Paris" (serve (Responds unavailable_string))
  = (Raise AttributeError,
     log_request (the_request "Paris") (serve (Responds unavailable_string)))
  /\ ~ (exists result w',
          get_weather "Paris" (serve (Responds unavailable_string))
          = (Ret result, w')
          /\ (is_Failure result \/ is_Success result)).
Proof.
  split; [reflexivity|].
  intros (result & w' & G & _). discriminate G.
Qed.

(** C4: on a 200 response whose body is the object {"main": null}, where
    main.temp, main.pressure and main.humidity are absent, [get_weather]
    raises [AttributeError] instead of returning a Success with those
    fields set to None. *)
Theorem null_main_raises :
  get_weather "London" (serve (Responds ok_null_main))
  = (Raise AttributeError,
     log_request (the_request "London") (serve (Responds ok_null_main))).
Proof. reflexivity. Qed.

(** C5: on a 401 response whose body is the JSON string "Unauthorized",
    [get_weather] raises [AttributeError] instead of returning the Failure
    "Invalid API key: ...". *)
Theorem unauthorized_string_body_raises :
  get_weather "London" (serve (Responds unauthorized_string))
  = (Raise AttributeError,
     log_request (the_request "London") (serve (Responds unauthorized_string))).
Proof. reflexivity. Qed.

(** C6: on a 404 response whose body is the JSON array [[]], [get_weather]
    raises [AttributeError] while it looks for the server message, before
    the test on 404 is reached: no "City not found" Failure is returned. *)
Theorem not_found_array_body_raises :
  get_weather "Atlantis" (serve (Responds not_found_array))
  = (Raise AttributeError,
     log_request (the_request "Atlantis") (serve (Responds not_found_array))).
Proof. reflexivity. Qed.

(** C7: on a 500 response whose body is the JSON value null, which decodes
    without error, [get_weather] raises [AttributeError] instead of
    returning the Failure "API request failed with status 500: ...". *)
Theorem server_error_null_body_raises :
  get_weather "London" (serve (Responds server_error_null))
  = (Raise AttributeError,
     log_request (the_request "London") (serve (Responds server_error_null))).
Proof. reflexivity. Qed.

(** C8: on a 200 response whose body is 2000 opening brackets, which does
    not parse as JSON, [json()] raises [RecursionError]; it is not a
    [ValueError], so [get_weather] raises it instead of returning the
    Failure "Failed to decode JSON response". *)
Theorem deep_body_raises :
  get_weather "London" (serve (Responds ok_too_deep))
  = (Raise RecursionError,
     log_request (the_request "London") (serve (Responds ok_too_deep)))
  /\ ~ (exists result w',
          get_weather "London" (serve (Responds ok_too_deep))
          = (Ret result, w')).
Proof.
  split; [reflexivity|].
  intros (result & w' & G). discriminate G.
Qed.

End Properties.

(** ** The documented behaviours on concrete runs *)

Example unauthorized_run :
  get_weather opaque_float quoted (PStr "bad") "London"
    (serve (Responds unauthorized_object))
  = (Ret (Failure "Invalid API key: Invalid API key."),
     log_request (weather_request (PStr "bad") "London")
                 (serve (Responds unauthorized_object))).
Proof. reflexivity. Qed.

Example unauthorized_report :
  stdout (snd (print_weather_report opaque_float quoted
                 (Failure "Invalid API key: Invalid API key.")
                 (serve (Responds unauthorized_object))))
  = [nl +:+ "❌ Error: Invalid API key: Invalid API key." +:+ nl].
Proof. reflexivity. Qed.

Example message_of_any_type :
  py_str opaque_float quoted
    (PDict [("code", PInt 429); ("retry", PList [PBool true; PNone])])
  = "{'code': 429, 'retry': [True, None]}".
Proof. reflexivity. Qed.

Lemma london_report_witness :
  reply (serve (Responds ok_london)) (weather_request (PStr "key") "london")
  = Responds ok_london
  /\ status_code ok_london = 200
  /\ json_body ok_london = Some london_body
  /\ get_weather opaque_float quoted (PStr "key") "london"
       (serve (Responds ok_london))
     = (Ret (Success (PStr "London") (PFloat 15.2%float) (PInt 1012)
                     (PInt 70) (PStr "clear sky") (PFloat 3.1%float)),
        log_request (weather_request (PStr "key") "london")
                    (serve (Responds ok_london))).
Proof.
  repeat (split; [reflexivity|]).
  apply (london_report opaque_float quoted (PStr "key")
           (serve (Responds ok_london)) "london" ok_london);
    reflexivity.
Defined.

Lemma undecodable_body_failure_witness :
  reply (serve (Responds ok_undecodable)) (weather_request PNone "Rome")
  = Responds ok_undecodable
  /\ status_code ok_undecodable = 200
  /\ json_result ok_undecodable = Raise ValueError
  /\ exists result,
       get_weather opaque_float quoted PNone "Rome"
         (serve (Responds ok_undecodable))
       = (Ret result,
          log_request (weather_request PNone "Rome")
                      (serve (Responds ok_undecodable)))
       /\ is_Failure result
       /\ result !! "error" = Some (PStr "Failed to decode JSON response").
Proof.
  repeat (split; [reflexivity|]).
  apply (undecodable_body_failure opaque_float quoted PNone
           (serve (Responds ok_undecodable)) "Rome" ok_undecodable);
    reflexivity.
Defined.

Lemma transport_failure_is_terminal_witness :
  reply (serve (Fails "Connection refused")) (weather_request (PStr "key") "Rome")
  = Fails "Connection refused"
  /\ exists message w',
       get_weather opaque_float quoted (PStr "key") "Rome"
         (serve (Fails "Connection refused"))
       = (Ret (Failure message), w')
       /\ message = "Network error: Connection refused"
       /\ contains message "Network error"
       /\ contains message "Connection refused"
       /\ sent w' = [weather_request (PStr "key") "Rome"].
Proof.
  split; [reflexivity|].
  apply (transport_failure_is_terminal opaque_float quoted (PStr "key")
           (serve (Fails "Connection refused")) "Rome" "Connection refused").
  reflexivity.
Defined.

Lemma null_name_is_kept_witness :
  reply (serve (Responds ok_null_name)) (weather_request (PStr "key") "Oslo")
  = Responds ok_null_name
  /\ status_code ok_null_name = 200
  /\ json_body ok_null_name = Some (PDict [("name", PNone)])
  /\ dict_lookup [("name", PNone)] "name" = Some PNone
  /\ exists result,
       get_weather opaque_float quoted (PStr "key") "Oslo"
         (serve (Responds ok_null_name))
       = (Ret result,
          log_request (weather_request (PStr "key") "Oslo")
                      (serve (Responds ok_null_name)))
       /\ is_Success result
       /\ result !! "city" = Some PNone
       /\ result !! "city" <> Some (PStr "Oslo").
Proof.
  repeat (split; [reflexivity|]).
  destruct (null_name_is_kept opaque_float quoted (PStr "key")
              (serve (Responds ok_null_name)) "Oslo" ok_null_name
              [("name", PNone)] eq_refl eq_refl eq_refl eq_refl) as [A B].
  destruct (B eq_refl) as [result E].
  exists result. split; [exact E|]. exact (A _ _ E).
Defined.

(** ** Further properties of the lookup *)

Section Lookup.

Variable repr_float : float -> string.
Variable repr_str : string -> string.
Variable API_KEY : pyval.

Local Abbreviation get_weather := (get_weather repr_float repr_str API_KEY).
Local Abbreviation py_str := (py_str repr_float repr_str).
Local Abbreviation the_request := (weather_request API_KEY).

(** X1: on a 401 response on which [json()] raises [ValueError] or returns
    an object, the result is the Failure "Invalid API key: " followed by
    the server message (the "message" entry, "Unknown error" without one,
    "Invalid response from server" after a [ValueError]). *)
Theorem invalid_key_failure (w : world) (city : string) (r : Response)
    (message : pyval) :
  reply w (the_request city) = Responds r ->
  status_code r = 401 ->
  server_message r = Some message ->
  get_weather city w
  = (Ret (Failure ("Invalid API key: " +:+ py_str message)),
     log_request (the_request city) w)
  /\ contains ("Invalid API key: " +:+ py_str message) "Invalid API key".
Proof. apply get_weather_401. Qed.

(** X2: on a 404 response on which [json()] raises [ValueError] or returns
    an object, the result is the Failure "City not found: " followed by the
    input city, whatever the object holds. *)
Theorem city_not_found_failure (w : world) (city : string) (r : Response) :
  reply w (the_request city) = Responds r ->
  status_code r = 404 ->
  answerable r = true ->
  get_weather city w
  = (Ret (Failure ("City not found: " +:+ city)),
     log_request (the_request city) w)
  /\ contains ("City not found: " +:+ city) city.
Proof.
  intros H S A.
  assert (exists message, server_message r = Some message) as [m Hm].
  { unfold answerable in A. unfold server_message.
    destruct (json_result r) as [[| | | | | |d]|[]];
      try discriminate A; eauto. }
  destruct (get_weather_404 repr_float repr_str API_KEY w city r m H S Hm)
    as (E & _ & C).
  split; assumption.
Qed.

(** X3: on a response whose status is none of 200, 401 and 404 and on
    which [json()] raises [ValueError] or returns an object, the result is
    the Failure "API request failed with status <code>: " followed by the
    server message, the code being written in decimal. *)
Theorem other_status_failure (w : world) (city : string) (r : Response)
    (message : pyval) :
  reply w (the_request city) = Responds r ->
  status_code r <> 200 ->
  status_code r <> 401 ->
  status_code r <> 404 ->
  server_message r = Some message ->
  get_weather city w
  = (Ret (Failure ("API request failed with status "
                   +:+ pretty (status_code r) +:+ ": " +:+ py_str message)),
     log_request (the_request city) w).
Proof. apply get_weather_other_status. Qed.

(** X4: a dictionary that [get_weather] returns is a Failure or a Success
    and never both. *)
Theorem returned_dictionary_is_one_variant (w w' : world) (city : string)
    (result : gmap string pyval) :
  get_weather city w = (Ret result, w') ->
  (is_Failure result /\ ~ is_Success result)
  \/ (is_Success result /\ ~ is_Failure result).
Proof. apply get_weather_returns_variant. Qed.


Lemma get_weather_world (w : world) (city : string) :
  snd (get_weather city w) = log_request (the_request city) w.
Proof.
  destruct (reply w (the_request city)) as [msg|r] eqn:H.
  - by rewrite (get_weather_transport_failure repr_float repr_str API_KEY
                  w city msg H).
  - destruct (answerable r) eqn:A.
    + destruct (get_weather_answerable repr_float repr_str API_KEY
                  w city r H A) as (res & E & _).
      by rewrite E.
    + destruct (get_weather_unanswerable repr_float repr_str API_KEY
                  w city r H A) as (e & E & _).
      by rewrite E.
Qed.

(** X6: whatever the outcome, a call of [get_weather] sends exactly one
    request, to the base URL with q = the city, the key, units = metric and
    a timeout of 10, prints nothing and leaves the network as it was. *)
Theorem one_request_per_call (w : world) (city : string) :
  sent (snd (get_weather city w))
  = (sent w
     ++ [mkRequest BASE_URL
           [("q", PStr city); ("appid", API_KEY); ("units", PStr "metric")]
           10])%list
  /\ stdout (snd (get_weather city w)) = stdout w
  /\ network (snd (get_weather city w)) = network w.
Proof. rewrite get_weather_world. repeat split; reflexivity. Qed.

(** X7: on a 200 response whose object has no "main", "weather" and
    "wind" entry, the result is a Success with temperature, pressure,
    humidity, description and wind_speed all None; the city is the "name"
    entry, or the input city when there is none. *)
Theorem missing_sections_give_none (w : world) (city : string) (r : Response)
    (d : list (string * pyval)) :
  reply w (the_request city) = Responds r ->
  status_code r = 200 ->
  json_body r = Some (PDict d) ->
  dict_lookup d "main" = None ->
  dict_lookup d "weather" = None ->
  dict_lookup d "wind" = None ->
  get_weather city w
  = (Ret (Success (dict_get d "name" (PStr city))
                  PNone PNone PNone PNone PNone),
     log_request (the_request city) w)
  /\ (dict_lookup d "name" = None -> dict_get d "name" (PStr city) = PStr city).
Proof.
  intros H S J Hm Hl Hw. split.
  - apply (get_weather_extracts repr_float repr_str API_KEY w city r d [] []
             PNone H S J).
    + unfold dict_get. by rewrite Hm.
    + unfold dict_get. by rewrite Hw.
    + left. unfold dict_get. by rewrite Hl.
  - intros Hn. unfold dict_get. by rewrite Hn.
Qed.

(** X8: on a 200 response whose object has objects under "main" and "wind"
    (when present) and, under "weather", a false value or a list that
    starts with an object, the result is the Success made of the "name"
    entry (default: the input city), main.temp, main.pressure,
    main.humidity, the description of the first weather item and
    wind.speed, each of them None when its key is absent. *)
Theorem extraction_of_well_shaped_body (w : world) (city : string)
    (r : Response) (d main wind : list (string * pyval))
    (description : pyval) :
  reply w (the_request city) = Responds r ->
  status_code r = 200 ->
  json_body r = Some (PDict d) ->
  dict_get d "main" (PDict []) = PDict main ->
  dict_get d "wind" (PDict []) = PDict wind ->
  (truthy (dict_get d "weather" (PList [])) = false /\ description = PNone)
  \/ (exists first rest,
        dict_get d "weather" (PList []) = PList (PDict first :: rest)
        /\ description = dict_get first "description" PNone) ->
  get_weather city w
  = (Ret (Success (dict_get d "name" (PStr city))
                  (dict_get main "temp" PNone)
                  (dict_get main "pressure" PNone)
                  (dict_get main "humidity" PNone)
                  description
                  (dict_get wind "speed" PNone)),
     log_request (the_request city) w).
Proof. apply get_weather_extracts. Qed.

(** X9: a returned dictionary is a Success exactly when the status is 200
    and the body decoded; every other returned dictionary is a Failure. *)
Theorem success_iff_ok_and_decoded (w w' : world) (city : string)
    (r : Response) (result : gmap string pyval) :
  reply w (the_request city) = Responds r ->
  get_weather city w = (Ret result, w') ->
  (is_Success result <-> status_code r = 200 /\ json_body r <> None)
  /\ (is_Failure result <-> ~ (status_code r = 200 /\ json_body r <> None)).
Proof.
  intros H G.
  assert (A : answerable r = true).
  { apply (get_weather_returns_iff repr_float repr_str API_KEY w city r H).
    eauto. }
  assert (K : (status_code r = 200 /\ json_body r <> None /\ is_Success result)
              \/ (~ (status_code r = 200 /\ json_body r <> None)
                  /\ is_Failure result)).
  { unfold answerable in A.
    destruct (Z.eqb_spec (status_code r) 200) as [S|N].
    - destruct (json_result r) as [[| | | | | |d]|[]] eqn:J;
        try discriminate A.
      + assert (Jb : json_body r = Some (PDict d))
          by (unfold json_body; by rewrite J).
        destruct (get_weather_extractable repr_float repr_str API_KEY
                    w city r d H S Jb A) as (t & p & h & ds & s & E).
        rewrite E in G. injection G as <- _.
        left. split; [exact S|]. split; [by rewrite Jb|].
        apply is_Success_Success.
      + rewrite (get_weather_undecodable repr_float repr_str API_KEY
                   w city r H S J) in G.
        injection G as <- _. right. split; [|apply is_Failure_Failure].
        unfold json_body. rewrite J. tauto.
    - assert (exists m, server_message r = Some m) as [m Hm].
      { unfold server_message.
        destruct (json_result r) as [[| | | | | |d]|[]];
          try discriminate A; eauto. }
      rewrite (get_weather_error_status repr_float repr_str API_KEY
                 w city r m H N Hm) in G.
      injection G as <- _. right. split; [tauto|].
      repeat case_match; apply is_Failure_Failure. }
  destruct K as [(S & J & Hs) | (N & Hf)]; split; split; intros X;
    try tauto; exfalso; eapply variants_disjoint; eauto.
Qed.

End Lookup.

(** ** Properties of the renderer and of the main block *)

(** Open the renderer, and the main block up to the call of [get_weather]. *)
Ltac open_report :=
  unfold print_weather_report, bind, dict_item, py_print, ret, raise.

Ltac open_main := unfold main, bind, py_input, ret, py_print.

Section Report.

Variable repr_float : float -> string.
Variable repr_str : string -> string.
Variable API_KEY : pyval.

Local Abbreviation get_weather := (get_weather repr_float repr_str API_KEY).
Local Abbreviation py_str := (py_str repr_float repr_str).
Local Abbreviation the_request := (weather_request API_KEY).
Local Abbreviation print_weather_report :=
  (print_weather_report repr_float repr_str).
Local Abbreviation main := (main repr_float repr_str API_KEY).

(** The world after [lines] have been written to the console. *)
Local Abbreviation printed w lines :=
  (mkWorld (network w) (sent w) (stdout w ++ lines)).

Lemma print_error_entry (w : world) (result : gmap string pyval) (e : pyval) :
  result !! "error" = Some e ->
  print_weather_report result w
  = (Ret tt, printed w [nl +:+ "❌ Error: " +:+ py_str e +:+ nl]).
Proof.
  intros He. open_report.
  rewrite He. rewrite bool_decide_eq_true_2 by eauto.
  cbn. rewrite !append_assoc. reflexivity.
Qed.

Lemma print_fields (w : world) (result : gmap string pyval)
    (c t p h d s : pyval) :
  result !! "error" = None ->
  result !! "city" = Some c ->
  result !! "temperature" = Some t ->
  result !! "pressure" = Some p ->
  result !! "humidity" = Some h ->
  result !! "description" = Some d ->
  result !! "wind_speed" = Some s ->
  print_weather_report result w
  = (Ret tt,
     printed w
       [nl +:+ "📍 Weather Report for: " +:+ py_str c +:+ nl;
        "--------------------------------------" +:+ nl;
        "🌡 Temperature : " +:+ py_str t +:+ " °C" +:+ nl;
        "💧 Humidity    : " +:+ py_str h +:+ " %" +:+ nl;
        "🔽 Pressure    : " +:+ py_str p +:+ " hPa" +:+ nl;
        "🌬 Wind Speed  : " +:+ py_str s +:+ " m/s" +:+ nl;
        "🌦 Condition   : " +:+ py_str d +:+ nl]).
Proof.
  intros He Hc Ht Hp Hh Hd Hs.
  open_report.
  rewrite He, Hc, Ht, Hp, Hh, Hd, Hs.
  rewrite bool_decide_eq_false_2 by (intros [? ?]; discriminate).
  cbn. rewrite <- !app_assoc, !append_assoc. reflexivity.
Qed.

(** The renderer writes to the console only. *)
Lemma print_keeps_network (w : world) (result : gmap string pyval) :
  sent (snd (print_weather_report result w)) = sent w
  /\ network (snd (print_weather_report result w)) = network w.
Proof.
  open_report.
  destruct (bool_decide (is_Some (result !! "error")));
    repeat (match goal with
            | |- context [result !! ?k] => destruct (result !! k)
            end; cbn; try (split; reflexivity)).
Qed.


(** X10: a dictionary with an "error" entry is reported by one line, the
    error marker followed by the entry, whatever else it holds. *)
Theorem error_entry_is_reported_alone (w : world)
    (result : gmap string pyval) (e : pyval) :
  result !! "error" = Some e ->
  print_weather_report result w
  = (Ret tt, printed w [nl +:+ "❌ Error: " +:+ py_str e +:+ nl]).
Proof. apply print_error_entry. Qed.

(** X11: a dictionary without "error" entry that has the six fields is
    reported by seven lines: the city, a rule, then temperature, humidity,
    pressure, wind speed and condition in this order, each value written
    as [str] gives it (a None is written "None"). *)
Theorem report_lines (w : world) (result : gmap string pyval)
    (c t p h d s : pyval) :
  result !! "error" = None ->
  result !! "city" = Some c ->
  result !! "temperature" = Some t ->
  result !! "pressure" = Some p ->
  result !! "humidity" = Some h ->
  result !! "description" = Some d ->
  result !! "wind_speed" = Some s ->
  print_weather_report result w
  = (Ret tt,
     printed w
       [nl +:+ "📍 Weather Report for: " +:+ py_str c +:+ nl;
        "--------------------------------------" +:+ nl;
        "🌡 Temperature : " +:+ py_str t +:+ " °C" +:+ nl;
        "💧 Humidity    : " +:+ py_str h +:+ " %" +:+ nl;
        "🔽 Pressure    : " +:+ py_str p +:+ " hPa" +:+ nl;
        "🌬 Wind Speed  : " +:+ py_str s +:+ " m/s" +:+ nl;
        "🌦 Condition   : " +:+ py_str d +:+ nl])
  /\ py_str PNone = "None".
Proof.
  intros He Hc Ht Hp Hh Hd Hs. split; [|reflexivity].
  by apply print_fields.
Qed.

(** X12: a dictionary without "error" entry that lacks one of the six
    fields makes the renderer raise [KeyError]; no request is sent. *)
Theorem report_needs_every_field (w : world) (result : gmap string pyval) :
  result !! "error" = None ->
  result !! "city" = None \/ result !! "temperature" = None
  \/ result !! "humidity" = None \/ result !! "pressure" = None
  \/ result !! "wind_speed" = None \/ result !! "description" = None ->
  exists w',
    print_weather_report result w = (Raise KeyError, w')
    /\ sent w' = sent w.
Proof.
  intros He Hmiss.
  open_report.
  rewrite He. rewrite bool_decide_eq_false_2 by (intros [? ?]; discriminate).
  destruct (result !! "city"); [|eauto].
  destruct (result !! "temperature"); [|eauto].
  destruct (result !! "humidity"); [|eauto].
  destruct (result !! "pressure"); [|eauto].
  destruct (result !! "wind_speed"); [|eauto].
  destruct (result !! "description"); [|eauto].
  exfalso. intuition discriminate.
Qed.



(** *** The main block *)

Lemma length_append (a b : string) :
  String.length (a +:+ b) = (String.length a + String.length b)%nat.
Proof.
  induction a as [|x a IH]; [reflexivity|].
  change (S (String.length (a +:+ b))
          = S (String.length a + String.length b)). by rewrite IH.
Qed.

Lemma skip_one_whitespace (c s : string) :
  In c whitespace ->
  skip_one whitespace (c +:+ s) = Some s /\ (1 <= String.length c)%nat.
Proof.
  intros H. unfold whitespace in H. cbn [map In] in H.
  repeat (destruct H as [<-|H]; [split; [reflexivity | cbn; lia]|]).
  contradiction.
Qed.

Lemma skip_all_blank (codes : list string) :
  Forall (fun c => In c whitespace) codes ->
  forall n,
    (String.length (fold_right String.append "" codes) <= n)%nat ->
    skip_all whitespace n (fold_right String.append "" codes) = "".
Proof.
  induction 1 as [|c codes Hc _ IH]; intros n Hn.
  - destruct n; reflexivity.
  - cbn [fold_right] in Hn |- *. rewrite length_append in Hn.
    destruct (skip_one_whitespace c (fold_right String.append "" codes) Hc)
      as [E L].
    destruct n as [|n]; [lia|].
    cbn [skip_all]. rewrite E. apply IH. lia.
Qed.

Lemma strip_blank (s : string) : blank s -> strip s = "".
Proof.
  intros (codes & Hc & ->). unfold strip, lstrip.
  rewrite (skip_all_blank codes Hc) by lia. reflexivity.
Qed.

(** X14: when the line entered consists of whitespace characters only (or
    is empty), the main block prints the prompt and the validation message
    and stops: no request is sent. *)
Theorem blank_input_sends_nothing (w : world) (line : string) :
  blank line ->
  main (Some line) w
  = (Ret tt,
     printed w ["Enter city name: ";
                "Please enter a valid city name." +:+ nl]).
Proof.
  intros B. open_main.
  rewrite (strip_blank line B). cbn. rewrite <- app_assoc. reflexivity.
Qed.

(** X15: when the stripped line is not empty, the main block sends exactly
    one request, whose city is the line without its leading and trailing
    whitespace, whatever the network answers. *)
Theorem main_sends_the_stripped_city (w : world) (line : string) :
  strip line <> "" ->
  sent (snd (main (Some line) w)) = (sent w ++ [the_request (strip line)])%list.
Proof.
  intros N. open_main.
  rewrite (proj2 (String.eqb_neq _ _) N).
  pose proof (get_weather_world repr_float repr_str API_KEY
                (printed w ["Enter city name: "]) (strip line)) as E.
  destruct (get_weather (strip line) (printed w ["Enter city name: "]))
    as [[result|e] w1]; cbn [snd] in E |- *; subst w1.
  - destruct (print_keeps_network
                (log_request (the_request (strip line))
                             (printed w ["Enter city name: "])) result)
      as [-> _].
    reflexivity.
  - reflexivity.
Qed.

(** X16: when the request fails in transport, the main block ends normally
    after printing the prompt and one line, the error marker followed by
    "Network error: " and the text of the transport error. *)
Theorem main_reports_transport_failure (w : world) (line e : string) :
  strip line <> "" ->
  reply w (the_request (strip line)) = Fails e ->
  main (Some line) w
  = (Ret tt,
     mkWorld (network w)
             (sent w ++ [the_request (strip line)])
             (stdout w ++ ["Enter city name: ";
                           nl +:+ "❌ Error: Network error: " +:+ e +:+ nl])).
Proof.
  intros N H. open_main.
  rewrite (proj2 (String.eqb_neq _ _) N).
  rewrite (get_weather_transport_failure repr_float repr_str API_KEY
             (printed w ["Enter city name: "]) (strip line) e H).
  rewrite (print_error_entry _ (Failure ("Network error: " +:+ e))
             (PStr ("Network error: " +:+ e)))
    by apply lookup_singleton_eq.
  cbn. rewrite <- app_assoc, !append_assoc. reflexivity.
Qed.



End Report.

Example strip_samples :
  strip "  London " = "London"
  /\ strip "New York" = "New York"
  /\ strip (bytes [9; 194; 160; 80; 97; 114; 105; 115; 226; 128; 137; 10]%nat)
     = "Paris"
  /\ strip (bytes [32; 227; 128; 128; 13]%nat) = ""
  /\ strip "" = "".
Proof. repeat split; reflexivity. Qed.

(** ** Runs of the further properties *)

Local Abbreviation lookup := (get_weather opaque_float quoted (PStr "key")).
Local Abbreviation request_for := (weather_request (PStr "key")).
Local Abbreviation report := (print_weather_report opaque_float quoted).
Local Abbreviation run_main := (main opaque_float quoted (PStr "key")).
Local Abbreviation str := (py_str opaque_float quoted).

Lemma invalid_key_failure_witness :
  reply (serve (Responds unauthorized_object)) (request_for "London")
  = Responds unauthorized_object
  /\ status_code unauthorized_object = 401
  /\ server_message unauthorized_object = Some (PStr "Invalid API key.")
  /\ lookup "London" (serve (Responds unauthorized_object))
     = (Ret (Failure "Invalid API key: Invalid API key."),
        log_request (request_for "London")
                    (serve (Responds unauthorized_object))).
Proof.
  repeat (split; [reflexivity|]).
  apply (invalid_key_failure opaque_float quoted (PStr "key")
           (serve (Responds unauthorized_object)) "London"
           unauthorized_object (PStr "Invalid API key.")
           eq_refl eq_refl eq_refl).
Defined.

Lemma city_not_found_failure_witness :
  reply (serve (Responds not_found_object)) (request_for "Atlantis")
  = Responds not_found_object
  /\ status_code not_found_object = 404
  /\ answerable not_found_object = true
  /\ lookup "Atlantis" (serve (Responds not_found_object))
     = (Ret (Failure "City not found: Atlantis"),
        log_request (request_for "Atlantis")
                    (serve (Responds not_found_object))).
Proof.
  repeat (split; [reflexivity|]).
  apply (city_not_found_failure opaque_float quoted (PStr "key")
           (serve (Responds not_found_object)) "Atlantis" not_found_object
           eq_refl eq_refl eq_refl).
Defined.

Lemma other_status_failure_witness :
  reply (serve (Responds server_error_page)) (request_for "London")
  = Responds server_error_page
  /\ status_code server_error_page <> 200
  /\ status_code server_error_page <> 401
  /\ status_code server_error_page <> 404
  /\ server_message server_error_page
     = Some (PStr "Invalid response from server")
  /\ lookup "London" (serve (Responds server_error_page))
     = (Ret (Failure
               "API request failed with status 500: Invalid response from server"),
        log_request (request_for "London")
                    (serve (Responds server_error_page))).
Proof.
  assert (N : forall c : Z, (500 =? c)%Z = false -> status_code server_error_page <> c).
  { intros c E. apply Z.eqb_neq. exact E. }
  split; [reflexivity|].
  split; [exact (N 200 eq_refl)|].
  split; [exact (N 401 eq_refl)|].
  split; [exact (N 404 eq_refl)|].
  split; [reflexivity|].
  exact (other_status_failure opaque_float quoted (PStr "key")
           (serve (Responds server_error_page)) "London" server_error_page
           (PStr "Invalid response from server")
           eq_refl (N 200 eq_refl) (N 401 eq_refl) (N 404 eq_refl) eq_refl).
Defined.

Lemma returned_dictionary_is_one_variant_witness :
  lookup "London" (serve (Responds ok_london))
  = (Ret (Success (PStr "London") (PFloat 15.2%float) (PInt 1012) (PInt 70)
                  (PStr "clear sky") (PFloat 3.1%float)),
     log_request (request_for "London") (serve (Responds ok_london)))
  /\ ((is_Failure (Success (PStr "London") (PFloat 15.2%float) (PInt 1012)
                           (PInt 70) (PStr "clear sky") (PFloat 3.1%float))
       /\ ~ is_Success (Success (PStr "London") (PFloat 15.2%float)
                                (PInt 1012) (PInt 70) (PStr "clear sky")
                                (PFloat 3.1%float)))
      \/ (is_Success (Success (PStr "London") (PFloat 15.2%float) (PInt 1012)
                              (PInt 70) (PStr "clear sky") (PFloat 3.1%float))
          /\ ~ is_Failure (Success (PStr "London") (PFloat 15.2%float)
                                   (PInt 1012) (PInt 70) (PStr "clear sky")
                                   (PFloat 3.1%float)))).
Proof.
  split; [reflexivity|].
  exact (returned_dictionary_is_one_variant opaque_float quoted (PStr "key")
           (serve (Responds ok_london)) _ "London" _ eq_refl).
Defined.


Lemma missing_sections_give_none_witness :
  reply (serve (Responds ok_empty_object)) (request_for "Oslo")
  = Responds ok_empty_object
  /\ status_code ok_empty_object = 200
  /\ json_body ok_empty_object = Some (PDict [])
  /\ dict_lookup [] "main" = None
  /\ dict_lookup [] "weather" = None
  /\ dict_lookup [] "wind" = None
  /\ lookup "Oslo" (serve (Responds ok_empty_object))
     = (Ret (Success (PStr "Oslo") PNone PNone PNone PNone PNone),
        log_request (request_for "Oslo") (serve (Responds ok_empty_object))).
Proof.
  repeat (split; [reflexivity|]).
  apply (missing_sections_give_none opaque_float quoted (PStr "key")
           (serve (Responds ok_empty_object)) "Oslo" ok_empty_object []
           eq_refl eq_refl eq_refl eq_refl eq_refl eq_refl).
Defined.

Lemma extraction_of_well_shaped_body_witness :
  reply (serve (Responds ok_london)) (request_for "london")
  = Responds ok_london
  /\ status_code ok_london = 200
  /\ lookup "london" (serve (Responds ok_london))
     = (Ret (Success (PStr "London") (PFloat 15.2%float) (PInt 1012)
                     (PInt 70) (PStr "clear sky") (PFloat 3.1%float)),
        log_request (request_for "london") (serve (Responds ok_london))).
Proof.
  repeat (split; [reflexivity|]).
  apply (extraction_of_well_shaped_body opaque_float quoted (PStr "key")
           (serve (Responds ok_london)) "london" ok_london _
           [("temp", PFloat 15.2%float); ("pressure", PInt 1012);
            ("humidity", PInt 70)]
           [("speed", PFloat 3.1%float)] (PStr "clear sky")
           eq_refl eq_refl eq_refl eq_refl eq_refl).
  right. exists [("description", PStr "clear sky")], [].
  split; reflexivity.
Defined.

Lemma success_iff_ok_and_decoded_witness :
  reply (serve (Responds not_found_object)) (request_for "Atlantis")
  = Responds not_found_object
  /\ lookup "Atlantis" (serve (Responds not_found_object))
     = (Ret (Failure "City not found: Atlantis"),
        log_request (request_for "Atlantis")
                    (serve (Responds not_found_object)))
  /\ (is_Success (Failure "City not found: Atlantis")
      <-> status_code not_found_object = 200
          /\ json_body not_found_object <> None)
  /\ (is_Failure (Failure "City not found: Atlantis")
      <-> ~ (status_code not_found_object = 200
             /\ json_body not_found_object <> None)).
Proof.
  repeat (split; [reflexivity|]).
  exact (success_iff_ok_and_decoded opaque_float quoted (PStr "key")
           (serve (Responds not_found_object)) _ "Atlantis" not_found_object
           _ eq_refl eq_refl).
Defined.

Lemma error_entry_is_reported_alone_witness :
  Failure "City not found: Atlantis" !! "error"
  = Some (PStr "City not found: Atlantis")
  /\ report (Failure "City not found: Atlantis") (serve (Fails "down"))
     = (Ret tt,
        mkWorld (network (serve (Fails "down"))) []
                [nl +:+ "❌ Error: City not found: Atlantis" +:+ nl]).
Proof.
  split; [reflexivity|].
  exact (error_entry_is_reported_alone opaque_float quoted
           (serve (Fails "down")) (Failure "City not found: Atlantis")
           (PStr "City not found: Atlantis") eq_refl).
Defined.

Lemma report_lines_witness :
  Success (PStr "Oslo") PNone PNone PNone PNone PNone !! "error" = None
  /\ Success (PStr "Oslo") PNone PNone PNone PNone PNone !! "city"
     = Some (PStr "Oslo")
  /\ report (Success (PStr "Oslo") PNone PNone PNone PNone PNone)
            (serve (Fails "down"))
     = (Ret tt,
        mkWorld (network (serve (Fails "down"))) []
          [nl +:+ "📍 Weather Report for: Oslo" +:+ nl;
           "--------------------------------------" +:+ nl;
           "🌡 Temperature : None °C" +:+ nl;
           "💧 Humidity    : None %" +:+ nl;
           "🔽 Pressure    : None hPa" +:+ nl;
           "🌬 Wind Speed  : None m/s" +:+ nl;
           "🌦 Condition   : None" +:+ nl]).
Proof.
  repeat (split; [reflexivity|]).
  apply (report_lines opaque_float quoted (serve (Fails "down"))
           (Success (PStr "Oslo") PNone PNone PNone PNone PNone)
           (PStr "Oslo") PNone PNone PNone PNone PNone
           eq_refl eq_refl eq_refl eq_refl eq_refl eq_refl eq_refl).
Defined.

Lemma report_needs_every_field_witness :
  ({[ "city" := PStr "Oslo" ]} : gmap string pyval) !! "error" = None
  /\ ({[ "city" := PStr "Oslo" ]} : gmap string pyval) !! "temperature" = None
  /\ exists w',
       report {[ "city" := PStr "Oslo" ]} (serve (Fails "down"))
       = (Raise KeyError, w')
       /\ sent w' = sent (serve (Fails "down")).
Proof.
  repeat (split; [reflexivity|]).
  apply (report_needs_every_field opaque_float quoted (serve (Fails "down"))
           ({[ "city" := PStr "Oslo" ]} : gmap string pyval)).
  - reflexivity.
  - right. left. reflexivity.
Defined.


Lemma blank_input_sends_nothing_witness :
  blank (bytes [32; 9; 194; 160]%nat)
  /\ run_main (Some (bytes [32; 9; 194; 160]%nat)) (serve (Responds ok_london))
     = (Ret tt,
        mkWorld (network (serve (Responds ok_london))) []
                ["Enter city name: ";
                 "Please enter a valid city name." +:+ nl]).
Proof.
  assert (B : blank (bytes [32; 9; 194; 160]%nat)).
  { exists [bytes [32]%nat; bytes [9]%nat; bytes [194; 160]%nat].
    split; [|reflexivity].
    repeat constructor; cbn; tauto. }
  split; [exact B|].
  exact (blank_input_sends_nothing opaque_float quoted (PStr "key")
           (serve (Responds ok_london)) _ B).
Defined.

Lemma main_sends_the_stripped_city_witness :
  strip "  London " <> ""
  /\ sent (snd (run_main (Some "  London ") (serve (Responds ok_london))))
     = [request_for "London"].
Proof.
  assert (N : strip "  London " <> "") by discriminate.
  split; [exact N|].
  exact (main_sends_the_stripped_city opaque_float quoted (PStr "key")
           (serve (Responds ok_london)) "  London " N).
Defined.

Lemma main_reports_transport_failure_witness :
  strip " Rome" <> ""
  /\ reply (serve (Fails "Connection refused")) (request_for "Rome")
     = Fails "Connection refused"
  /\ run_main (Some " Rome") (serve (Fails "Connection refused"))
     = (Ret tt,
        mkWorld (network (serve (Fails "Connection refused")))
                [request_for "Rome"]
                ["Enter city name: ";
                 nl +:+ "❌ Error: Network error: Connection refused" +:+ nl]).
Proof.
  assert (N : strip " Rome" <> "") by discriminate.
  split; [exact N|]. split; [reflexivity|].
  exact (main_reports_transport_failure opaque_float quoted (PStr "key")
           (serve (Fails "Connection refused")) " Rome" "Connection refused"
           N eq_refl).
Defined.


